(** * recon/masscan.py: the Masscan task of the recon pipeline

    A shallow embedding of [recon.masscan.Masscan] (a luigi
    [ExternalProgramTask]) and the properties of its port handling, its
    output target and the argument vector it hands to [masscan]. *)

From Stdlib Require Import ZArith String Ascii List Lia DecimalString.
From Stdlib Require Import DecimalPos DecimalZ.
From stdpp Require Import base strings gmap.

Import ListNotations.
Open Scope string_scope.
Open Scope Z_scope.

(** ** Python values and built-ins used by the task *)

(** The values that are placed in the argument vector: luigi parameters are
    strings when they come from the command line, and may be numbers when they
    come from the configuration. *)
Inductive pyval : Type :=
| PStr (s : string)
| PInt (z : Z).

(** Truth value of a [str]: the empty string is false. *)
Definition bool_of_str (s : string) : bool :=
  match s with
  | EmptyString => false
  | String _ _ => true
  end.

(** Truth value of an [int]: zero is false. *)
Definition bool_of_int (z : Z) : bool := negb (z =? 0).

(** [str(x)] for an [int]: decimal digits, with a leading minus sign for a
    negative number. *)
Definition str (z : Z) : string := NilZero.string_of_int (Z.to_int z).

(** [sep.join(l)]. *)
Definition join (sep : string) (l : list string) : string := String.concat sep l.

(** [l[:n]]: the first [n] elements, all of [l] when it is shorter; a negative
    [n] counts from the end of the list. *)
Definition slice_to {A : Type} (l : list A) (n : Z) : list A :=
  if 0 <=? n then firstn (Z.to_nat n) l
  else firstn (Z.to_nat (Z.of_nat (length l) + n)) l.

(** [s.split(sep)] for a separator of one character. *)
Fixpoint split (sep : ascii) (s : string) : list string :=
  match s with
  | EmptyString => [EmptyString]
  | String c s' =>
      if Ascii.eqb c sep then EmptyString :: split sep s'
      else match split sep s' with
           | h :: t => String c h :: t
           | [] => [String c EmptyString]
           end
  end.

(** The entries of a comma-separated list: none for the empty string. *)
Definition entries (s : string) : list string :=
  if bool_of_str s then split "," s else [].

(** [c] does not occur in [s]. *)
Fixpoint char_free (c : ascii) (s : string) : bool :=
  match s with
  | EmptyString => true
  | String a s' => negb (Ascii.eqb a c) && char_free c s'
  end.

(** ** Targets and tasks *)

(** [luigi.LocalTarget]: a file on the local disk. *)
Record LocalTarget : Type := mkLocalTarget { path : string }.

(** [recon.targets.TargetList], the upstream task: identified by its
    [target_file] parameter. *)
Record TargetList : Type := mkTargetList { tl_target_file : string }.

(** The attributes of a [Masscan] instance: the luigi parameters ([target_file]
    is inherited from [TargetList]) and [masscan_output], set by [__init__]. *)
Record Masscan : Type := mkMasscan {
  target_file : string;
  rate : pyval;
  interface : pyval;
  top_ports : Z;
  ports : string;
  masscan_output : string
}.

(** [self.ports = v] *)
Definition set_ports (self : Masscan) (v : string) : Masscan :=
  {| target_file := target_file self; rate := rate self;
     interface := interface self; top_ports := top_ports self;
     ports := v; masscan_output := masscan_output self |}.

(** [self.top_ports = v] *)
Definition set_top_ports (self : Masscan) (v : Z) : Masscan :=
  {| target_file := target_file self; rate := rate self;
     interface := interface self; top_ports := v;
     ports := ports self; masscan_output := masscan_output self |}.

(** Defaults of the two port parameters. *)
Definition default_top_ports : Z := 0.
Definition default_ports : string := "".

(** [Masscan.__init__]: the parameters become attributes, then the name of the
    output file is derived from [target_file]. *)
Definition init (target_file : string) (rate interface : pyval)
    (top_ports : Z) (ports : string) : Masscan :=
  {| target_file := target_file; rate := rate; interface := interface;
     top_ports := top_ports; ports := ports;
     masscan_output := "masscan." ++ target_file ++ ".json" |}.

(** [Masscan.requires] *)
Definition requires (self : Masscan) : gmap string TargetList :=
  {[ "target_list" := mkTargetList (target_file self) ]}.

(** [Masscan.output] *)
Definition output (self : Masscan) : LocalTarget :=
  mkLocalTarget (masscan_output self).

(** What a call of [program_args] ends in: it returns the argument vector
    (and leaves the instance in a new state), or the interpreter exits with a
    status after an error was logged, or an exception is raised. *)
Inductive outcome : Type :=
| Returned (command : list pyval) (self' : Masscan)
| Exited (logged : string) (status : Z)
| Raised (exc : string).

(** The flags of [masscan] that take a value, in the order in which
    [program_args] gives them. *)
Definition value_flags : list string :=
  ["--rate"; "-e"; "-oJ"; "--ports"; "-iL"].

(** The switches that take no value, after the name of the executable. *)
Definition leading_args : list string :=
  ["masscan"; "-v"; "--open"; "--banners"].

(** A sequence of flags, each followed by its one value. *)
Definition flag_pairs (l : list (string * pyval)) : list pyval :=
  flat_map (fun fv => [PStr (fst fv); snd fv]) l.

(** The configurations that pass the three checks of [program_args]: exactly
    one of [ports] and [top_ports] is given, and [top_ports] is not negative. *)
Definition resolves (self : Masscan) : Prop :=
  (ports self <> "" /\ top_ports self = 0) \/
  (ports self = "" /\ 0 < top_ports self).

(** The three violations, as the guards of [program_args] test them. *)
Definition conflicting (self : Masscan) : Prop :=
  ports self <> "" /\ top_ports self <> 0.

Definition missing (self : Masscan) : Prop :=
  ports self = "" /\ top_ports self = 0.

Definition negative_count (self : Masscan) : Prop :=
  ports self = "" /\ top_ports self < 0.

(** A target list provider and two small catalogs for the sample runs. *)
Definition sample_targets (t : TargetList) : LocalTarget :=
  mkLocalTarget (tl_target_file t ++ ".ips").

Definition sample_tcp : list Z := [80; 443; 22; 21].
Definition sample_udp : list Z := [53; 161; 123; 137].

(** Instances for the sample runs: the target file "acme" with the first three
    catalog ports, with two explicit ports, with both, with neither, and with
    a negative count without and with explicit ports. *)
Definition sample (top_ports : Z) (ports : string) : Masscan :=
  init "acme" (PStr "1000") (PStr "tun0") top_ports ports.

Definition sample_top3 : Masscan := sample 3 "".
Definition sample_explicit : Masscan := sample 0 "80,443".
Definition sample_conflict : Masscan := sample 5 "80".
Definition sample_missing : Masscan := sample default_top_ports default_ports.
Definition sample_negative : Masscan := sample (-1) "".
Definition sample_negative_ports : Masscan := sample (-1) "80".

(** The vector for "acme" and a given port expression. *)
Definition sample_command (spec : string) : list pyval :=
  [ PStr "masscan"; PStr "-v"; PStr "--open"; PStr "--banners";
    PStr "--rate"; PStr "1000"; PStr "-e"; PStr "tun0";
    PStr "-oJ"; PStr "masscan.acme.json";
    PStr "--ports"; PStr spec;
    PStr "-iL"; PStr "acme.ips" ].

Section MasscanTask.

(** The port catalogs of [recon.config], most popular port first. *)
Variables top_tcp_ports top_udp_ports : list Z.

(** [TargetList.output] of [recon.targets]: the file of targets that the
    upstream task produces. *)
Variable TargetList_output : TargetList -> LocalTarget.

(** [Task.input]: the outputs of the required tasks, under the same keys. *)
Definition input (self : Masscan) : gmap string LocalTarget :=
  TargetList_output <$> requires self.

(** The two segments built from the catalogs for [--top-ports n]. *)
Definition top_tcp_ports_str (n : Z) : string :=
  join "," (map str (slice_to top_tcp_ports n)).

Definition top_udp_ports_str (n : Z) : string :=
  join "," (map str (slice_to top_udp_ports n)).

(** The block under [if self.top_ports:]: the catalogs' first entries are
    written to [self.ports] and [self.top_ports] is reset. *)
Definition use_top_ports (self : Masscan) : Masscan :=
  set_top_ports
    (set_ports self
       (top_tcp_ports_str (top_ports self) ++ ",U:"
          ++ top_udp_ports_str (top_ports self)))
    0.

(** The list literal at the end of [program_args]. *)
Definition command_of (self : Masscan) : outcome :=
  match input self !! "target_list" with
  | Some target_list =>
      Returned
        [ PStr "masscan"; PStr "-v"; PStr "--open"; PStr "--banners";
          PStr "--rate"; rate self;
          PStr "-e"; interface self;
          PStr "-oJ"; PStr (masscan_output self);
          PStr "--ports"; PStr (ports self);
          PStr "-iL"; PStr (path target_list) ]
        self
  | None => Raised "AttributeError"
  end.

(** [Masscan.program_args] *)
Definition program_args (self : Masscan) : outcome :=
  if bool_of_str (ports self) && bool_of_int (top_ports self) then
    Exited "Only --ports or --top-ports is permitted, not both." 1
  else if negb (bool_of_str (ports self)) && negb (bool_of_int (top_ports self)) then
    Exited "Must specify either --top-ports or --ports." 2
  else if top_ports self <? 0 then
    Exited "--top-ports must be greater than 0" 3
  else if bool_of_int (top_ports self) then
    command_of (use_top_ports self)
  else
    command_of self.

(** The state in which a call that returns leaves the instance: the
    assignments of [program_args], without its checks. *)
Definition resolved (self : Masscan) : Masscan :=
  if bool_of_int (top_ports self) then use_top_ports self else self.

(** [n + 1] successive calls of [program_args] on the same instance; the
    outcome of the last one. *)
Fixpoint call_again (n : nat) (self : Masscan) : outcome :=
  match n with
  | O => program_args self
  | S n' =>
      match program_args self with
      | Returned _ self' => call_again n' self'
      | o => o
      end
  end.

(** ** Strings: splitting what [join] has built *)

Lemma bool_of_str_true (s : string) : bool_of_str s = true <-> s <> "".
Proof. destruct s; simpl; split; congruence. Qed.

Lemma bool_of_str_false (s : string) : bool_of_str s = false <-> s = "".
Proof. destruct s; simpl; split; congruence. Qed.

Lemma bool_of_int_true (z : Z) : bool_of_int z = true <-> z <> 0.
Proof.
  unfold bool_of_int. destruct (Z.eqb_spec z 0); simpl; split; congruence.
Qed.

Lemma bool_of_int_false (z : Z) : bool_of_int z = false <-> z = 0.
Proof.
  unfold bool_of_int. destruct (Z.eqb_spec z 0); simpl; split; congruence.
Qed.

Lemma split_char_free (sep : ascii) (s : string) :
  char_free sep s = true -> split sep s = [s].
Proof.
  induction s as [|c s IH]; simpl; [reflexivity|].
  intros H. apply andb_prop in H as [Hc Hs].
  apply negb_true_iff in Hc. rewrite Hc, (IH Hs). reflexivity.
Qed.

Lemma split_app (sep : ascii) (s1 s2 : string) :
  char_free sep s1 = true ->
  split sep (s1 ++ String sep s2) = s1 :: split sep s2.
Proof.
  induction s1 as [|c s1 IH]; simpl.
  - intros _. rewrite Ascii.eqb_refl. reflexivity.
  - intros H. apply andb_prop in H as [Hc Hs].
    apply negb_true_iff in Hc. rewrite Hc, (IH Hs). reflexivity.
Qed.

Lemma split_join (sep : ascii) (x : string) (l : list string) :
  Forall (fun s => char_free sep s = true) (x :: l) ->
  split sep (join (String sep "") (x :: l)) = x :: l.
Proof.
  revert x. induction l as [|y l IH]; intros x H.
  - simpl. apply split_char_free. now inversion H.
  - inversion H as [|? ? Hx Hl]; subst.
    change (join (String sep "") (x :: y :: l))
      with (x ++ String sep (join (String sep "") (y :: l))).
    rewrite split_app by assumption. now rewrite IH.
Qed.

Lemma join_nonempty (sep x : string) (l : list string) :
  x <> "" -> join sep (x :: l) <> "".
Proof.
  intros Hx. destruct l as [|y l]; simpl; [assumption|].
  destruct x; [congruence|discriminate].
Qed.

Lemma entries_join (l : list string) :
  Forall (fun s => char_free "," s = true) l ->
  Forall (fun s => s <> "") l ->
  entries (join "," l) = l.
Proof.
  intros Hfree Hne. destruct l as [|x l]; [reflexivity|].
  unfold entries.
  assert (Hb : bool_of_str (join "," (x :: l)) = true).
  { apply bool_of_str_true, join_nonempty. now inversion Hne. }
  rewrite Hb. now apply split_join.
Qed.

(** ** Decimal numerals have no comma and are not empty *)

Lemma uint_char_free (d : Decimal.uint) :
  char_free "," (NilEmpty.string_of_uint d) = true.
Proof. induction d; simpl; auto. Qed.

Lemma str_char_free (z : Z) : char_free "," (str z) = true.
Proof.
  unfold str. destruct (Z.to_int z) as [d|d]; simpl;
    destruct d; simpl; auto using uint_char_free.
Qed.

Lemma str_nonempty (z : Z) : str z <> "".
Proof.
  unfold str. destruct (Z.to_int z) as [d|d]; simpl;
    destruct d; discriminate.
Qed.

Lemma entries_join_str (l : list Z) : entries (join "," (map str l)) = map str l.
Proof.
  apply entries_join; apply List.Forall_forall; intros s Hs;
    apply in_map_iff in Hs as [z [<- _]];
    auto using str_char_free, str_nonempty.
Qed.

Lemma slice_to_nonneg {A : Type} (l : list A) (n : Z) :
  0 <= n -> slice_to l n = firstn (Z.to_nat n) l.
Proof.
  intros Hn. unfold slice_to. destruct (Z.leb_spec 0 n); [reflexivity|lia].
Qed.

(** ** The paths through [program_args] *)

Lemma input_target_list (self : Masscan) :
  input self !! "target_list"
  = Some (TargetList_output (mkTargetList (target_file self))).
Proof.
  unfold input, requires. rewrite lookup_fmap, lookup_singleton_eq.
  reflexivity.
Qed.

Lemma command_of_returns (self : Masscan) :
  command_of self
  = Returned
      [ PStr "masscan"; PStr "-v"; PStr "--open"; PStr "--banners";
        PStr "--rate"; rate self;
        PStr "-e"; interface self;
        PStr "-oJ"; PStr (masscan_output self);
        PStr "--ports"; PStr (ports self);
        PStr "-iL";
        PStr (path (TargetList_output (mkTargetList (target_file self)))) ]
      self.
Proof. unfold command_of. rewrite input_target_list. reflexivity. Qed.

Lemma program_args_conflicting (self : Masscan) :
  ports self <> "" -> top_ports self <> 0 ->
  program_args self
  = Exited "Only --ports or --top-ports is permitted, not both." 1.
Proof.
  intros Hp Ht. unfold program_args.
  apply bool_of_str_true in Hp. apply bool_of_int_true in Ht.
  rewrite Hp, Ht. reflexivity.
Qed.

Lemma program_args_missing (self : Masscan) :
  ports self = "" -> top_ports self = 0 ->
  program_args self = Exited "Must specify either --top-ports or --ports." 2.
Proof.
  intros Hp Ht. unfold program_args. rewrite Hp, Ht. reflexivity.
Qed.

Lemma program_args_negative (self : Masscan) :
  ports self = "" -> top_ports self < 0 ->
  program_args self = Exited "--top-ports must be greater than 0" 3.
Proof.
  intros Hp Ht. unfold program_args. rewrite Hp. simpl.
  assert (Hb : bool_of_int (top_ports self) = true)
    by (apply bool_of_int_true; lia).
  rewrite Hb. simpl.
  destruct (Z.ltb_spec (top_ports self) 0); [reflexivity|lia].
Qed.

Lemma program_args_ports (self : Masscan) :
  ports self <> "" -> top_ports self = 0 ->
  program_args self = command_of self.
Proof.
  intros Hp Ht. unfold program_args.
  apply bool_of_str_true in Hp. rewrite Hp, Ht. reflexivity.
Qed.

Lemma program_args_top_ports (self : Masscan) :
  ports self = "" -> 0 < top_ports self ->
  program_args self = command_of (use_top_ports self).
Proof.
  intros Hp Ht. unfold program_args. rewrite Hp. simpl.
  assert (Hb : bool_of_int (top_ports self) = true)
    by (apply bool_of_int_true; lia).
  rewrite Hb. simpl.
  destruct (Z.ltb_spec (top_ports self) 0); [lia|reflexivity].
Qed.

(** Every configuration is in exactly one of the five cases above. *)
Lemma config_cases (self : Masscan) :
  conflicting self \/ missing self \/ negative_count self \/ resolves self.
Proof.
  unfold conflicting, missing, negative_count, resolves.
  destruct (string_dec (ports self) "");
    destruct (Z.lt_trichotomy (top_ports self) 0) as [?|[?|?]];
    intuition lia.
Qed.

Lemma use_top_ports_ports_nonempty (self : Masscan) :
  ports (use_top_ports self) <> "".
Proof.
  simpl. destruct (top_tcp_ports_str (top_ports self)); discriminate.
Qed.

Lemma program_args_resolves (self : Masscan) :
  resolves self -> program_args self = command_of (resolved self).
Proof.
  unfold resolved. intros [[Hp Ht]|[Hp Ht]].
  - rewrite program_args_ports by assumption. now rewrite Ht.
  - rewrite program_args_top_ports by assumption.
    assert (Hb : bool_of_int (top_ports self) = true)
      by (apply bool_of_int_true; lia).
    now rewrite Hb.
Qed.

Lemma resolved_resolves (self : Masscan) :
  resolves self ->
  ports (resolved self) <> "" /\ top_ports (resolved self) = 0.
Proof.
  unfold resolved. intros [[Hp Ht]|[Hp Ht]].
  - now rewrite Ht.
  - assert (Hb : bool_of_int (top_ports self) = true)
      by (apply bool_of_int_true; lia).
    rewrite Hb. split; [apply use_top_ports_ports_nonempty|reflexivity].
Qed.

(** [program_args] returns exactly on the configurations that resolve. *)
Lemma program_args_returned (self self' : Masscan) (command : list pyval) :
  program_args self = Returned command self' ->
  resolves self /\ self' = resolved self.
Proof.
  intros H.
  destruct (config_cases self) as [[Hp Ht]|[[Hp Ht]|[[Hp Ht]|Hr]]].
  - rewrite program_args_conflicting in H by assumption. discriminate.
  - rewrite program_args_missing in H by assumption. discriminate.
  - rewrite program_args_negative in H by assumption. discriminate.
  - split; [assumption|].
    rewrite program_args_resolves, command_of_returns in H by assumption.
    congruence.
Qed.

(** A second call on the state left by a successful call changes nothing. *)
Lemma program_args_again (self self' : Masscan) (command : list pyval) :
  program_args self = Returned command self' ->
  program_args self' = Returned command self'.
Proof.
  intros H. destruct (program_args_returned _ _ _ H) as [Hr ->].
  destruct (resolved_resolves _ Hr) as [Hp Ht].
  rewrite program_args_ports by assumption.
  rewrite program_args_resolves in H by assumption.
  rewrite command_of_returns in *. congruence.
Qed.

Lemma call_again_stable (self' : Masscan) (command : list pyval) :
  program_args self' = Returned command self' ->
  forall n : nat, call_again n self' = Returned command self'.
Proof.
  intros H n. induction n as [|n IH]; simpl; [assumption|].
  now rewrite H.
Qed.

Lemma program_args_never_raises (self : Masscan) (exc : string) :
  program_args self <> Raised exc.
Proof.
  destruct (config_cases self) as [[Hp Ht]|[[Hp Ht]|[[Hp Ht]|Hr]]].
  - now rewrite program_args_conflicting.
  - now rewrite program_args_missing.
  - now rewrite program_args_negative.
  - now rewrite program_args_resolves, command_of_returns.
Qed.

Lemma program_args_keeps_output (self self' : Masscan) (command : list pyval) :
  program_args self = Returned command self' ->
  masscan_output self' = masscan_output self /\
  nth_error command 9 = Some (PStr (masscan_output self)).
Proof.
  intros H. destruct (program_args_returned _ _ _ H) as [Hr ->].
  rewrite program_args_resolves, command_of_returns in H by assumption.
  injection H as <-. unfold resolved.
  destruct (bool_of_int (top_ports self)); split; reflexivity.
Qed.

Lemma call_again_from (self self' : Masscan) (command : list pyval) :
  program_args self = Returned command self' ->
  forall n : nat, call_again n self = Returned command self'.
Proof.
  intros H [|n]; simpl; [assumption|].
  rewrite H. apply call_again_stable. now apply program_args_again with self.
Qed.

(** ** The port specification *)

(** C1: with [top_ports > 0] and no [ports], [program_args] returns, and the
    port expression it passes on is [tcp ++ ",U:" ++ udp]: [tcp] joins with
    commas the decimal numerals of the first [top_ports] entries of the TCP
    catalog, in catalog order, so it has min(top_ports, catalog length)
    comma-separated entries; [udp] is built alike from the UDP catalog. The
    [",U:"] is there whatever the two segments are, an empty one included. *)
Theorem top_ports_expression (self : Masscan) :
  0 < top_ports self -> ports self = "" ->
  exists (command : list pyval) (self' : Masscan) (tcp udp : string),
    program_args self = Returned command self' /\
    ports self' = tcp ++ ",U:" ++ udp /\
    nth_error command 11 = Some (PStr (tcp ++ ",U:" ++ udp)) /\
    tcp = join "," (map str (firstn (Z.to_nat (top_ports self)) top_tcp_ports)) /\
    entries tcp = map str (firstn (Z.to_nat (top_ports self)) top_tcp_ports) /\
    length (entries tcp)
    = Nat.min (Z.to_nat (top_ports self)) (length top_tcp_ports) /\
    udp = join "," (map str (firstn (Z.to_nat (top_ports self)) top_udp_ports)) /\
    entries udp = map str (firstn (Z.to_nat (top_ports self)) top_udp_ports) /\
    length (entries udp)
    = Nat.min (Z.to_nat (top_ports self)) (length top_udp_ports).
Proof.
  intros Ht Hp.
  exists (match command_of (use_top_ports self) with
          | Returned c _ => c | _ => [] end), (use_top_ports self).
  exists (top_tcp_ports_str (top_ports self)),
         (top_udp_ports_str (top_ports self)).
  rewrite program_args_top_ports, command_of_returns by assumption.
  unfold use_top_ports, top_tcp_ports_str, top_udp_ports_str.
  cbn [ports set_ports set_top_ports].
  rewrite !slice_to_nonneg by lia.
  rewrite !entries_join_str, !length_map, !length_firstn.
  repeat split; reflexivity.
Qed.

(** C2, as the code has it: with [top_ports < 0] the call always exits, with
    status 3 when [ports] is empty; when [ports] is given the check for a
    conflict comes first and the status is 1. *)
Theorem negative_top_ports_exits (self : Masscan) :
  top_ports self < 0 ->
  exists (logged : string) (status : Z),
    program_args self = Exited logged status /\
    (ports self = "" /\ status = 3 \/ ports self <> "" /\ status = 1).
Proof.
  intros Ht. destruct (string_dec (ports self) "") as [Hp|Hp].
  - exists "--top-ports must be greater than 0", 3.
    split; [now apply program_args_negative | now left].
  - exists "Only --ports or --top-ports is permitted, not both.", 1.
    split; [apply program_args_conflicting; [assumption|lia] | now right].
Qed.

(** C4: with [ports] given and [top_ports > 0] the call exits with status 1,
    whatever the other parameters are, and returns no argument vector. *)
Theorem conflicting_port_spec_exits (self : Masscan) :
  ports self <> "" -> 0 < top_ports self ->
  program_args self
  = Exited "Only --ports or --top-ports is permitted, not both." 1 /\
  forall (command : list pyval) (self' : Masscan),
    program_args self <> Returned command self'.
Proof.
  intros Hp Ht.
  assert (H : program_args self
              = Exited "Only --ports or --top-ports is permitted, not both." 1)
    by (apply program_args_conflicting; [assumption|lia]).
  split; [assumption|]. intros command self'. now rewrite H.
Qed.

(** C5: with neither [ports] nor [top_ports] given the call exits with
    status 2. *)
Theorem missing_port_spec_exits (self : Masscan) :
  ports self = "" -> top_ports self = 0 ->
  program_args self = Exited "Must specify either --top-ports or --ports." 2.
Proof. apply program_args_missing. Qed.

(** C6: with [ports] given and [top_ports = 0], the value after [--ports] in
    the returned vector is the [ports] string itself, and the instance is
    left as it was. *)
Theorem explicit_ports_pass_through (self : Masscan) :
  ports self <> "" -> top_ports self = 0 ->
  exists command : list pyval,
    program_args self = Returned command self /\
    nth_error command 10 = Some (PStr "--ports") /\
    nth_error command 11 = Some (PStr (ports self)).
Proof.
  intros Hp Ht. rewrite program_args_ports, command_of_returns by assumption.
  eexists. split; [reflexivity|]. split; reflexivity.
Qed.

(** C7, as the code has it: each of the three violations ends the call with
    a status that is not 0, and no argument vector is returned. The status is
    1 for a conflict ([ports] given and [top_ports > 0]) and 2 for a missing
    specification; for a negative count it is 3 when [ports] is empty and 1,
    the status of a conflict, when [ports] is given. *)
Theorem violations_exit (self : Masscan) :
  (ports self <> "" /\ 0 < top_ports self) \/
  (ports self = "" /\ top_ports self = 0) \/
  top_ports self < 0 ->
  exists (logged : string) (status : Z),
    program_args self = Exited logged status /\
    status <> 0 /\
    (status = 1 <->
     ports self <> "" /\ (0 < top_ports self \/ top_ports self < 0)) /\
    (status = 2 <-> ports self = "" /\ top_ports self = 0) /\
    (status = 3 <-> ports self = "" /\ top_ports self < 0) /\
    forall (command : list pyval) (self' : Masscan),
      program_args self <> Returned command self'.
Proof.
  intros H.
  assert (Hc : conflicting self \/ missing self \/ negative_count self).
  { destruct (config_cases self) as [?|[?|[?|Hr]]]; auto.
    exfalso. unfold resolves in Hr.
    destruct H as [[? ?]|[[? ?]|?]], Hr as [[? ?]|[? ?]];
      congruence || lia. }
  clear H. unfold conflicting, missing, negative_count in *.
  destruct Hc as [[Hp Ht]|[[Hp Ht]|[Hp Ht]]].
  - exists "Only --ports or --top-ports is permitted, not both.", 1.
    rewrite program_args_conflicting by assumption.
    repeat split; try discriminate; try tauto; try lia.
  - exists "Must specify either --top-ports or --ports.", 2.
    rewrite program_args_missing by assumption.
    repeat split; try discriminate; try tauto; try lia.
  - exists "--top-ports must be greater than 0", 3.
    rewrite program_args_negative by assumption.
    repeat split; try discriminate; try tauto; try lia.
Qed.

(** C9: after a call with [top_ports > 0] and no [ports], [top_ports] is 0
    and [ports] holds the expression built from the catalogs, which is not
    empty; every later call returns the same vector and leaves the instance
    in that state. *)
Theorem top_ports_replaced (self : Masscan) :
  0 < top_ports self -> ports self = "" ->
  exists (command : list pyval) (self' : Masscan),
    program_args self = Returned command self' /\
    top_ports self' = 0 /\
    ports self'
    = top_tcp_ports_str (top_ports self) ++ ",U:"
        ++ top_udp_ports_str (top_ports self) /\
    ports self' <> "" /\
    nth_error command 11 = Some (PStr (ports self')) /\
    forall n : nat, call_again n self' = Returned command self'.
Proof.
  intros Ht Hp.
  assert (H : program_args self = command_of (use_top_ports self))
    by now apply program_args_top_ports.
  rewrite command_of_returns in H.
  eexists _, (use_top_ports self). split; [exact H|].
  split; [reflexivity|]. split; [reflexivity|].
  split; [apply use_top_ports_ports_nonempty|].
  split; [reflexivity|].
  apply call_again_stable. now apply program_args_again with self.
Qed.

(** ** The output target *)

(** C3, as the code has it: the path of the output target is
    ["masscan." ++ target_file ++ ".json"], whatever the other parameters
    are, so "masscan.acme.json" for "acme"; calls of [program_args] leave it
    as [__init__] has set it, and pass it on after [-oJ]. *)
Theorem output_path_of_target_file
    (tf : string) (r i r' i' : pyval) (t t' : Z) (p p' : string) :
  path (output (init tf r i t p)) = "masscan." ++ tf ++ ".json" /\
  path (output (init tf r' i' t' p')) = path (output (init tf r i t p)) /\
  path (output (init "acme" r i t p)) = "masscan.acme.json" /\
  forall n : nat,
    match call_again n (init tf r i t p) with
    | Returned command self' =>
        output self' = output (init tf r i t p) /\
        nth_error command 9 = Some (PStr (path (output self')))
    | _ => True
    end.
Proof.
  repeat split; try reflexivity.
  intros n. generalize (init tf r i t p). induction n as [|n IH]; intros self.
  - simpl. destruct (program_args self) as [command self'| |] eqn:H; trivial.
    apply program_args_keeps_output in H as [H1 H2].
    unfold output. rewrite H1. split; [reflexivity|exact H2].
  - simpl. destruct (program_args self) as [command self'| |] eqn:H; trivial.
    apply program_args_keeps_output in H as [H1 _].
    specialize (IH self').
    destruct (call_again n self'); trivial.
    unfold output in *. rewrite <- H1. exact IH.
Qed.

(** ** The argument vector *)

(** C8: when a call returns, every further call on the same instance returns
    the same vector, the call after [top_ports] has been replaced included;
    the vector is the executable and its three switches followed by five
    pairs, each of a flag that takes a value ([--rate], [-e], [-oJ],
    [--ports], [-iL]) and its one value. *)
Theorem program_args_repeatable
    (self self' : Masscan) (command : list pyval) :
  program_args self = Returned command self' ->
  program_args self' = Returned command self' /\
  (forall n : nat, call_again n self = Returned command self') /\
  exists values : list pyval,
    length values = 5%nat /\
    command
    = (map PStr leading_args ++ flag_pairs (combine value_flags values))%list.
Proof.
  intros H. split; [now apply program_args_again with self|].
  split; [now apply call_again_from|].
  destruct (program_args_returned _ _ _ H) as [Hr ->].
  rewrite program_args_resolves, command_of_returns in H by assumption.
  injection H as <-.
  eexists [_; _; _; _; _]. split; reflexivity.
Qed.

(** C10: on a configuration that resolves, the call returns these fourteen
    elements in this order; the rate and the interface are the parameters
    themselves, the value after [--ports] is the [ports] of the state the
    call leaves. *)
Theorem program_args_vector (self : Masscan) :
  resolves self ->
  exists (command : list pyval) (self' : Masscan),
    program_args self = Returned command self' /\
    self' = resolved self /\
    length command = 14%nat /\
    command
    = [ PStr "masscan"; PStr "-v"; PStr "--open"; PStr "--banners";
        PStr "--rate"; rate self;
        PStr "-e"; interface self;
        PStr "-oJ"; PStr (path (output self));
        PStr "--ports"; PStr (ports self');
        PStr "-iL";
        PStr (path (TargetList_output (mkTargetList (target_file self)))) ].
Proof.
  intros Hr. rewrite program_args_resolves, command_of_returns by assumption.
  eexists _, _. split; [reflexivity|]. split; [reflexivity|].
  split; [reflexivity|].
  unfold resolved. destruct (bool_of_int (top_ports self)); reflexivity.
Qed.

End MasscanTask.

(** ** Sample runs *)

Example run_top3 :
  program_args sample_tcp sample_udp sample_targets sample_top3
  = Returned (sample_command "80,443,22,U:53,161,123")
      (sample 0 "80,443,22,U:53,161,123").
Proof. vm_compute. reflexivity. Qed.

Example run_explicit :
  program_args sample_tcp sample_udp sample_targets sample_explicit
  = Returned (sample_command "80,443") sample_explicit.
Proof. vm_compute. reflexivity. Qed.

(** The catalogs are shorter than the count: all of the TCP catalog, and an
    empty segment after [U:]. *)
Example run_short_catalogs :
  program_args [80; 443] [] sample_targets (sample 5 "")
  = Returned (sample_command "80,443,U:") (sample 0 "80,443,U:").
Proof. vm_compute. reflexivity. Qed.

Example run_empty_catalogs :
  program_args [] [] sample_targets (sample 5 "")
  = Returned (sample_command ",U:") (sample 0 ",U:").
Proof. vm_compute. reflexivity. Qed.

Example slice_to_negative : slice_to sample_tcp (-1) = [80; 443; 22].
Proof. reflexivity. Qed.

Example entries_of_segment : entries "80,443,22" = ["80"; "443"; "22"].
Proof. reflexivity. Qed.

Example str_of_negative : str (-17) = "-17".
Proof. reflexivity. Qed.

(** ** The theorems at the sample runs *)

Lemma top_ports_expression_witness :
  0 < top_ports sample_top3 /\ ports sample_top3 = "" /\
  exists (command : list pyval) (self' : Masscan),
    program_args sample_tcp sample_udp sample_targets sample_top3
    = Returned command self' /\
    ports self' = "80,443,22,U:53,161,123".
Proof.
  split; [reflexivity|]. split; [reflexivity|].
  destruct (top_ports_expression sample_tcp sample_udp sample_targets
              sample_top3 eq_refl eq_refl)
    as (command & self' & tcp & udp & H & Hp & _ & Htcp & _ & _ & Hudp & _).
  exists command, self'. split; [exact H|].
  rewrite Hp, Htcp, Hudp. reflexivity.
Defined.

Lemma negative_top_ports_exits_witness :
  top_ports sample_negative < 0 /\
  exists (logged : string) (status : Z),
    program_args sample_tcp sample_udp sample_targets sample_negative
    = Exited logged status /\
    (ports sample_negative = "" /\ status = 3 \/
     ports sample_negative <> "" /\ status = 1).
Proof.
  split; [reflexivity|].
  apply (negative_top_ports_exits sample_tcp sample_udp sample_targets
           sample_negative).
  reflexivity.
Defined.

(** A negative count together with explicit ports: the status is 1, not 3. *)
Lemma negative_top_ports_with_ports :
  top_ports sample_negative_ports < 0 /\
  program_args sample_tcp sample_udp sample_targets sample_negative_ports
  = Exited "Only --ports or --top-ports is permitted, not both." 1 /\
  ~ exists logged : string,
      program_args sample_tcp sample_udp sample_targets sample_negative_ports
      = Exited logged 3.
Proof.
  split; [reflexivity|]. split; [vm_compute; reflexivity|].
  intros [logged H]. vm_compute in H. discriminate H.
Qed.

(** The output of the task for "acme" is not "scan.acme.json". *)
Lemma output_path_acme_not_scan :
  path (output sample_top3) = "masscan.acme.json" /\
  path (output sample_top3) <> "scan.acme.json".
Proof. split; [reflexivity|]. vm_compute. discriminate. Qed.

Lemma conflicting_port_spec_exits_witness :
  ports sample_conflict <> "" /\ 0 < top_ports sample_conflict /\
  program_args sample_tcp sample_udp sample_targets sample_conflict
  = Exited "Only --ports or --top-ports is permitted, not both." 1.
Proof.
  split; [discriminate|]. split; [reflexivity|].
  apply (conflicting_port_spec_exits sample_tcp sample_udp sample_targets
           sample_conflict); [discriminate|reflexivity].
Defined.

Lemma missing_port_spec_exits_witness :
  ports sample_missing = "" /\ top_ports sample_missing = 0 /\
  program_args sample_tcp sample_udp sample_targets sample_missing
  = Exited "Must specify either --top-ports or --ports." 2.
Proof.
  split; [reflexivity|]. split; [reflexivity|].
  apply (missing_port_spec_exits sample_tcp sample_udp sample_targets
           sample_missing); reflexivity.
Defined.

Lemma explicit_ports_pass_through_witness :
  ports sample_explicit <> "" /\ top_ports sample_explicit = 0 /\
  exists command : list pyval,
    program_args sample_tcp sample_udp sample_targets sample_explicit
    = Returned command sample_explicit /\
    nth_error command 10 = Some (PStr "--ports") /\
    nth_error command 11 = Some (PStr "80,443").
Proof.
  split; [discriminate|]. split; [reflexivity|].
  apply (explicit_ports_pass_through sample_tcp sample_udp sample_targets
           sample_explicit); [discriminate|reflexivity].
Defined.

Lemma violations_exit_witness :
  top_ports sample_negative_ports < 0 /\
  exists (logged : string) (status : Z),
    program_args sample_tcp sample_udp sample_targets sample_negative_ports
    = Exited logged status /\
    status <> 0 /\
    (status = 1 <->
     ports sample_negative_ports <> "" /\
     (0 < top_ports sample_negative_ports \/
      top_ports sample_negative_ports < 0)).
Proof.
  assert (Hn : top_ports sample_negative_ports < 0) by reflexivity.
  split; [exact Hn|].
  destruct (violations_exit sample_tcp sample_udp sample_targets
              sample_negative_ports (or_intror (or_intror Hn)))
    as (logged & status & H & H0 & H1 & _).
  exists logged, status. auto.
Defined.

(** The statuses do not tell the kinds apart: a negative count with explicit
    ports, which is no conflict ([top_ports] is not positive), is reported
    with status 1 like a conflict, and not with status 3 like a negative count
    without ports. *)
Lemma negative_count_shares_conflict_status :
  (top_ports sample_negative_ports < 0 /\
   ~ 0 < top_ports sample_negative_ports) /\
  (ports sample_conflict <> "" /\ 0 < top_ports sample_conflict) /\
  top_ports sample_negative < 0 /\
  program_args sample_tcp sample_udp sample_targets sample_negative_ports
  = Exited "Only --ports or --top-ports is permitted, not both." 1 /\
  program_args sample_tcp sample_udp sample_targets sample_conflict
  = Exited "Only --ports or --top-ports is permitted, not both." 1 /\
  program_args sample_tcp sample_udp sample_targets sample_negative
  = Exited "--top-ports must be greater than 0" 3 /\
  ~ exists negative_status : Z,
      forall self : Masscan,
        top_ports self < 0 ->
        exists logged : string,
          program_args sample_tcp sample_udp sample_targets self
          = Exited logged negative_status.
Proof.
  split; [split; [reflexivity|discriminate]|].
  split; [split; [discriminate|reflexivity]|].
  split; [reflexivity|].
  split; [vm_compute; reflexivity|].
  split; [vm_compute; reflexivity|].
  split; [vm_compute; reflexivity|].
  intros [st H].
  destruct (H sample_negative_ports eq_refl) as [l1 H1].
  destruct (H sample_negative eq_refl) as [l3 H3].
  vm_compute in H1, H3. congruence.
Qed.

Lemma top_ports_replaced_witness :
  0 < top_ports sample_top3 /\ ports sample_top3 = "" /\
  exists (command : list pyval) (self' : Masscan),
    program_args sample_tcp sample_udp sample_targets sample_top3
    = Returned command self' /\
    top_ports self' = 0 /\ ports self' = "80,443,22,U:53,161,123" /\
    forall n : nat,
      call_again sample_tcp sample_udp sample_targets n self'
      = Returned command self'.
Proof.
  split; [reflexivity|]. split; [reflexivity|].
  destruct (top_ports_replaced sample_tcp sample_udp sample_targets
              sample_top3 eq_refl eq_refl)
    as (command & self' & H & Ht & Hp & _ & _ & Hn).
  exists command, self'. repeat split; assumption.
Defined.

Lemma program_args_repeatable_witness :
  program_args sample_tcp sample_udp sample_targets sample_top3
  = Returned (sample_command "80,443,22,U:53,161,123")
      (sample 0 "80,443,22,U:53,161,123") /\
  program_args sample_tcp sample_udp sample_targets
    (sample 0 "80,443,22,U:53,161,123")
  = Returned (sample_command "80,443,22,U:53,161,123")
      (sample 0 "80,443,22,U:53,161,123").
Proof.
  assert (H : program_args sample_tcp sample_udp sample_targets sample_top3
              = Returned (sample_command "80,443,22,U:53,161,123")
                  (sample 0 "80,443,22,U:53,161,123"))
    by (vm_compute; reflexivity).
  split; [exact H|].
  apply (program_args_repeatable sample_tcp sample_udp sample_targets
           sample_top3 _ _ H).
Defined.

Lemma program_args_vector_witness :
  resolves sample_explicit /\
  exists self' : Masscan,
    program_args sample_tcp sample_udp sample_targets sample_explicit
    = Returned (sample_command "80,443") self'.
Proof.
  assert (Hr : resolves sample_explicit)
    by (left; split; [discriminate|reflexivity]).
  split; [exact Hr|].
  destruct (program_args_vector sample_tcp sample_udp sample_targets
              sample_explicit Hr)
    as (command & self' & H & -> & _ & ->).
  exists (resolved sample_tcp sample_udp sample_explicit). exact H.
Defined.

(** ** Further properties: strings and numerals *)

#[local] Arguments String.append !s1 s2 : simpl nomatch.

Lemma append_empty (s : string) : s ++ "" = s.
Proof. induction s as [|c s IH]; simpl; [reflexivity|now rewrite IH]. Qed.

Lemma append_append (a b c : string) : (a ++ b) ++ c = a ++ (b ++ c).
Proof. induction a as [|x a IH]; simpl; [reflexivity|now rewrite IH]. Qed.

Lemma append_char_inj (c : ascii) (a b : string) :
  a ++ String c "" = b ++ String c "" -> a = b.
Proof.
  revert b. induction a as [|x a IH]; intros [|y b] H; simpl in H.
  - reflexivity.
  - injection H as _ H. destruct b; discriminate H.
  - injection H as _ H. destruct a; discriminate H.
  - injection H as -> H. f_equal. now apply IH.
Qed.

Lemma append_suffix_inj (s a b : string) : a ++ s = b ++ s -> a = b.
Proof.
  revert a b. induction s as [|c s IH]; intros a b H.
  - now rewrite !append_empty in H.
  - change (String c s) with (String c "" ++ s) in H.
    rewrite <- !append_append in H.
    apply IH in H. now apply append_char_inj in H.
Qed.

Lemma char_free_app (c : ascii) (s1 s2 : string) :
  char_free c (s1 ++ s2) = char_free c s1 && char_free c s2.
Proof.
  induction s1 as [|a s1 IH]; simpl; [reflexivity|].
  now rewrite IH, andb_assoc.
Qed.

(** The text before the first occurrence of a character, and the text after
    it, are determined by the whole. *)
Lemma append_sep_inj (c : ascii) (s1 s2 r1 r2 : string) :
  char_free c s1 = true -> char_free c s2 = true ->
  s1 ++ String c r1 = s2 ++ String c r2 -> s1 = s2 /\ r1 = r2.
Proof.
  revert s2. induction s1 as [|a s1 IH]; intros [|b s2] H1 H2 H; simpl in *.
  - injection H as ->. now split.
  - injection H as <- _. apply andb_prop in H2 as [H2 _].
    now rewrite Ascii.eqb_refl in H2.
  - injection H as -> _. apply andb_prop in H1 as [H1 _].
    now rewrite Ascii.eqb_refl in H1.
  - injection H as -> H.
    apply andb_prop in H1 as [_ H1]. apply andb_prop in H2 as [_ H2].
    destruct (IH s2 H1 H2 H) as [-> ->]. now split.
Qed.

Lemma uint_no_U (d : Decimal.uint) :
  char_free "U" (NilEmpty.string_of_uint d) = true.
Proof. induction d; simpl; auto. Qed.

Lemma str_no_U (z : Z) : char_free "U" (str z) = true.
Proof.
  unfold str. destruct (Z.to_int z) as [d|d]; simpl;
    destruct d; simpl; auto using uint_no_U.
Qed.

Lemma join_no_U (l : list Z) : char_free "U" (join "," (map str l)) = true.
Proof.
  induction l as [|z l IH]; [reflexivity|].
  destruct l as [|y l]; [apply str_no_U|].
  change (join "," (map str (z :: y :: l)))
    with (str z ++ String "," (join "," (map str (y :: l)))).
  rewrite char_free_app, str_no_U. simpl. exact IH.
Qed.

Lemma to_int_not_nil (z : Z) :
  Z.to_int z <> Decimal.Pos Decimal.Nil /\ Z.to_int z <> Decimal.Neg Decimal.Nil.
Proof.
  destruct z as [|p|p]; simpl; split; try discriminate;
    intros [= H]; now apply (Unsigned.to_uint_nonnil p).
Qed.

(** Two integers with the same numeral are equal. *)
Lemma str_inj (z1 z2 : Z) : str z1 = str z2 -> z1 = z2.
Proof.
  unfold str. intros H. apply DecimalZ.to_int_inj.
  destruct (to_int_not_nil z1) as [Hp1 Hn1].
  destruct (to_int_not_nil z2) as [Hp2 Hn2].
  pose proof (NilZero.isi _ Hp1 Hn1) as E1.
  pose proof (NilZero.isi _ Hp2 Hn2) as E2.
  rewrite H in E1. congruence.
Qed.

Lemma map_str_inj (l1 l2 : list Z) : map str l1 = map str l2 -> l1 = l2.
Proof.
  revert l2. induction l1 as [|z1 l1 IH]; intros [|z2 l2] H;
    try discriminate H; [reflexivity|].
  injection H as Hz Hl. f_equal; [now apply str_inj | now apply IH].
Qed.

Lemma join_str_inj (l1 l2 : list Z) :
  join "," (map str l1) = join "," (map str l2) -> l1 = l2.
Proof.
  intros H. apply map_str_inj.
  rewrite <- (entries_join_str l1), <- (entries_join_str l2). now rewrite H.
Qed.

Lemma port_expression_inj (t1 u1 t2 u2 : list Z) :
  join "," (map str t1) ++ ",U:" ++ join "," (map str u1)
  = join "," (map str t2) ++ ",U:" ++ join "," (map str u2) ->
  t1 = t2 /\ u1 = u2.
Proof.
  intros H.
  change (",U:" ++ ?x) with ("," ++ String "U" (":" ++ x)) in H.
  rewrite <- !append_append in H.
  apply append_sep_inj in H as [Ht Hu];
    try (rewrite char_free_app, join_no_U; reflexivity).
  apply append_suffix_inj in Ht. injection Hu as Hu.
  split; now apply join_str_inj.
Qed.

(** ** Further properties: the task *)

(** X1: a call of [program_args] that returns changes nothing but [ports] and
    [top_ports]: the target file, the rate and the interface are as before,
    and so are the required tasks, their outputs and the task's own output. *)
Theorem program_args_frame
    (tcp udp : list Z) (TL : TargetList -> LocalTarget)
    (self self' : Masscan) (command : list pyval) :
  program_args tcp udp TL self = Returned command self' ->
  target_file self' = target_file self /\
  rate self' = rate self /\
  interface self' = interface self /\
  requires self' = requires self /\
  input TL self' = input TL self /\
  output self' = output self.
Proof.
  intros H. apply program_args_returned in H as [_ ->].
  unfold resolved. destruct (bool_of_int (top_ports self));
    repeat split; reflexivity.
Qed.

(** X4: the entries that a count [n] takes from a catalog are the first [n]
    of the entries that a larger count [m] takes, for TCP and for UDP. *)
Theorem top_ports_prefix (tcp udp : list Z) (n m : Z) :
  0 <= n <= m ->
  entries (top_tcp_ports_str tcp n)
  = firstn (Z.to_nat n) (entries (top_tcp_ports_str tcp m)) /\
  entries (top_udp_ports_str udp n)
  = firstn (Z.to_nat n) (entries (top_udp_ports_str udp m)).
Proof.
  intros [Hn Hm]. unfold top_tcp_ports_str, top_udp_ports_str.
  rewrite !slice_to_nonneg by lia. rewrite !entries_join_str.
  rewrite <- !firstn_map, !firstn_firstn.
  replace (Nat.min (Z.to_nat n) (Z.to_nat m)) with (Z.to_nat n) by lia.
  split; reflexivity.
Qed.

(** X5: a count that is at least the length of both catalogs selects both
    catalogs whole: the value after [--ports] is all of the TCP catalog, then
    [,U:], then all of the UDP catalog. *)
Theorem top_ports_beyond_catalogs
    (tcp udp : list Z) (TL : TargetList -> LocalTarget) (self : Masscan) :
  ports self = "" -> 0 < top_ports self ->
  Z.of_nat (length tcp) <= top_ports self ->
  Z.of_nat (length udp) <= top_ports self ->
  exists (command : list pyval) (self' : Masscan),
    program_args tcp udp TL self = Returned command self' /\
    ports self' = join "," (map str tcp) ++ ",U:" ++ join "," (map str udp) /\
    nth_error command 11 = Some (PStr (ports self')).
Proof.
  intros Hp Ht Htcp Hudp.
  rewrite program_args_top_ports, command_of_returns by assumption.
  eexists _, _. split; [reflexivity|]. split; [|reflexivity].
  unfold use_top_ports, top_tcp_ports_str, top_udp_ports_str.
  cbn [ports set_ports set_top_ports].
  rewrite !slice_to_nonneg by lia.
  rewrite !firstn_all2 by lia. reflexivity.
Qed.

(** X6: the port expression built from the catalogs tells which ports were
    taken: two calls on the top-ports path, with any catalogs and counts, that
    leave the same [ports] have taken the same TCP ports and the same UDP
    ports. *)
Theorem port_expression_determines_ports
    (tcp1 udp1 tcp2 udp2 : list Z) (TL1 TL2 : TargetList -> LocalTarget)
    (self1 self2 self1' self2' : Masscan) (command1 command2 : list pyval) :
  ports self1 = "" -> 0 < top_ports self1 ->
  ports self2 = "" -> 0 < top_ports self2 ->
  program_args tcp1 udp1 TL1 self1 = Returned command1 self1' ->
  program_args tcp2 udp2 TL2 self2 = Returned command2 self2' ->
  ports self1' = ports self2' ->
  firstn (Z.to_nat (top_ports self1)) tcp1
  = firstn (Z.to_nat (top_ports self2)) tcp2 /\
  firstn (Z.to_nat (top_ports self1)) udp1
  = firstn (Z.to_nat (top_ports self2)) udp2.
Proof.
  intros Hp1 Ht1 Hp2 Ht2 H1 H2 H.
  rewrite program_args_top_ports, command_of_returns in H1 by assumption.
  rewrite program_args_top_ports, command_of_returns in H2 by assumption.
  injection H1 as _ <-. injection H2 as _ <-.
  unfold use_top_ports, top_tcp_ports_str, top_udp_ports_str in H.
  cbn [ports set_ports set_top_ports] in H.
  rewrite !slice_to_nonneg in H by lia.
  now apply port_expression_inj.
Qed.

(** X7: the path string of the output is injective in [target_file]: two
    tasks whose output paths are the same string have the same [target_file]
    string. (Path strings that differ may still name one file: [target_file]
    is spliced into the name as it is.) *)
Theorem output_path_inj
    (tf1 tf2 : string) (r1 i1 r2 i2 : pyval) (t1 t2 : Z) (p1 p2 : string) :
  path (output (init tf1 r1 i1 t1 p1)) = path (output (init tf2 r2 i2 t2 p2)) ->
  tf1 = tf2.
Proof.
  cbn [path output init masscan_output]. intros H.
  apply String.app_inj in H. now apply append_suffix_inj in H.
Qed.

(** X8: whenever [program_args] returns, the value after [--ports] is a
    string that is not empty, and the instance is left with that string as
    [ports] and with [top_ports] at 0. *)
Theorem ports_value_never_empty
    (tcp udp : list Z) (TL : TargetList -> LocalTarget)
    (self self' : Masscan) (command : list pyval) :
  program_args tcp udp TL self = Returned command self' ->
  exists spec : string,
    nth_error command 11 = Some (PStr spec) /\
    spec <> "" /\ ports self' = spec /\ top_ports self' = 0.
Proof.
  intros H. destruct (program_args_returned _ _ _ _ _ _ H) as [Hr ->].
  rewrite program_args_resolves, command_of_returns in H by assumption.
  injection H as <-.
  destruct (resolved_resolves tcp udp self Hr) as [Hne H0].
  exists (ports (resolved tcp udp self)). repeat split; assumption.
Qed.

(** X9: the catalogs are read only on the top-ports path: unless [ports] is
    empty and [top_ports] is positive, the outcome is the same for any two
    pairs of catalogs. *)
Theorem catalogs_unused
    (tcp udp tcp' udp' : list Z) (TL : TargetList -> LocalTarget)
    (self : Masscan) :
  ~ (ports self = "" /\ 0 < top_ports self) ->
  program_args tcp udp TL self = program_args tcp' udp' TL self.
Proof.
  intros Hn.
  destruct (config_cases self) as [[Hp Ht]|[[Hp Ht]|[[Hp Ht]|[[Hp Ht]|Hr]]]].
  - now rewrite !program_args_conflicting.
  - now rewrite !program_args_missing.
  - now rewrite !program_args_negative.
  - now rewrite !program_args_ports.
  - contradiction.
Qed.

(** X10: the three checks come before the catalogs and the target list are
    read: on a configuration that does not resolve, the outcome is the same
    whatever the catalogs and the upstream output are. *)
Theorem checks_come_first
    (tcp udp tcp' udp' : list Z) (TL TL' : TargetList -> LocalTarget)
    (self : Masscan) :
  ~ resolves self ->
  program_args tcp udp TL self = program_args tcp' udp' TL' self /\
  exists (logged : string) (status : Z),
    program_args tcp udp TL self = Exited logged status.
Proof.
  intros Hn.
  destruct (config_cases self) as [[Hp Ht]|[[Hp Ht]|[[Hp Ht]|Hr]]].
  - rewrite !program_args_conflicting by assumption. eauto.
  - rewrite !program_args_missing by assumption. eauto.
  - rewrite !program_args_negative by assumption. eauto.
  - contradiction.
Qed.

(** ** The further properties at the sample runs *)

Lemma program_args_frame_witness :
  program_args sample_tcp sample_udp sample_targets sample_top3
  = Returned (sample_command "80,443,22,U:53,161,123")
      (sample 0 "80,443,22,U:53,161,123") /\
  requires (sample 0 "80,443,22,U:53,161,123") = requires sample_top3 /\
  output (sample 0 "80,443,22,U:53,161,123") = output sample_top3.
Proof.
  assert (H : program_args sample_tcp sample_udp sample_targets sample_top3
              = Returned (sample_command "80,443,22,U:53,161,123")
                  (sample 0 "80,443,22,U:53,161,123"))
    by (vm_compute; reflexivity).
  split; [exact H|].
  destruct (program_args_frame sample_tcp sample_udp sample_targets
              sample_top3 _ _ H) as (_ & _ & _ & Hreq & _ & Hout).
  split; assumption.
Defined.

Lemma top_ports_prefix_witness :
  0 <= 2 <= 3 /\
  entries (top_tcp_ports_str sample_tcp 2)
  = firstn 2 (entries (top_tcp_ports_str sample_tcp 3)) /\
  entries (top_udp_ports_str sample_udp 2)
  = firstn 2 (entries (top_udp_ports_str sample_udp 3)).
Proof.
  split; [lia|]. apply (top_ports_prefix sample_tcp sample_udp 2 3). lia.
Defined.

Lemma top_ports_beyond_catalogs_witness :
  ports (sample 9 "") = "" /\ 0 < top_ports (sample 9 "") /\
  Z.of_nat (length sample_tcp) <= 9 /\ Z.of_nat (length sample_udp) <= 9 /\
  exists (command : list pyval) (self' : Masscan),
    program_args sample_tcp sample_udp sample_targets (sample 9 "")
    = Returned command self' /\
    ports self' = "80,443,22,21,U:53,161,123,137".
Proof.
  split; [reflexivity|]. split; [reflexivity|].
  split; [simpl; lia|]. split; [simpl; lia|].
  destruct (top_ports_beyond_catalogs sample_tcp sample_udp sample_targets
              (sample 9 "") eq_refl eq_refl)
    as (command & self' & H & Hp & _); [simpl; lia|simpl; lia|].
  exists command, self'. split; [exact H|]. rewrite Hp. reflexivity.
Defined.

Lemma port_expression_determines_ports_witness :
  program_args sample_tcp sample_udp sample_targets sample_top3
  = Returned (sample_command "80,443,22,U:53,161,123")
      (sample 0 "80,443,22,U:53,161,123") /\
  program_args [80; 443; 22] [53; 161; 123; 500] sample_targets sample_top3
  = Returned (sample_command "80,443,22,U:53,161,123")
      (sample 0 "80,443,22,U:53,161,123") /\
  firstn 3 sample_tcp = firstn 3 [80; 443; 22] /\
  firstn 3 sample_udp = firstn 3 [53; 161; 123; 500].
Proof.
  assert (H1 : program_args sample_tcp sample_udp sample_targets sample_top3
               = Returned (sample_command "80,443,22,U:53,161,123")
                   (sample 0 "80,443,22,U:53,161,123"))
    by (vm_compute; reflexivity).
  assert (H2 : program_args [80; 443; 22] [53; 161; 123; 500] sample_targets
                 sample_top3
               = Returned (sample_command "80,443,22,U:53,161,123")
                   (sample 0 "80,443,22,U:53,161,123"))
    by (vm_compute; reflexivity).
  split; [exact H1|]. split; [exact H2|].
  apply (port_expression_determines_ports
           sample_tcp sample_udp [80; 443; 22] [53; 161; 123; 500]
           sample_targets sample_targets sample_top3 sample_top3 _ _ _ _
           eq_refl eq_refl eq_refl eq_refl H1 H2 eq_refl).
Defined.

Lemma output_path_inj_witness :
  path (output (sample 3 "")) = path (output (sample 0 "80,443")) /\
  "acme" = "acme".
Proof.
  split; [reflexivity|].
  apply (output_path_inj "acme" "acme" (PStr "1000") (PStr "tun0")
           (PStr "1000") (PStr "tun0") 3 0 "" "80,443").
  reflexivity.
Defined.

Lemma ports_value_never_empty_witness :
  program_args sample_tcp sample_udp sample_targets sample_explicit
  = Returned (sample_command "80,443") sample_explicit /\
  exists spec : string,
    nth_error (sample_command "80,443") 11 = Some (PStr spec) /\
    spec <> "" /\ ports sample_explicit = spec /\
    top_ports sample_explicit = 0.
Proof.
  assert (H : program_args sample_tcp sample_udp sample_targets sample_explicit
              = Returned (sample_command "80,443") sample_explicit)
    by (vm_compute; reflexivity).
  split; [exact H|].
  apply (ports_value_never_empty sample_tcp sample_udp sample_targets
           sample_explicit _ _ H).
Defined.

Lemma catalogs_unused_witness :
  ~ (ports sample_explicit = "" /\ 0 < top_ports sample_explicit) /\
  program_args sample_tcp sample_udp sample_targets sample_explicit
  = program_args [] [] sample_targets sample_explicit.
Proof.
  assert (Hn : ~ (ports sample_explicit = "" /\ 0 < top_ports sample_explicit))
    by (intros [H _]; discriminate H).
  split; [exact Hn|].
  apply (catalogs_unused sample_tcp sample_udp [] [] sample_targets
           sample_explicit Hn).
Defined.

Lemma checks_come_first_witness :
  ~ resolves sample_missing /\
  program_args sample_tcp sample_udp sample_targets sample_missing
  = program_args [] [] (fun _ => mkLocalTarget "") sample_missing.
Proof.
  assert (Hn : ~ resolves sample_missing).
  { intros [[H _]|[_ H]]; [now apply H | discriminate H]. }
  split; [exact Hn|].
  apply (checks_come_first sample_tcp sample_udp [] [] sample_targets
           (fun _ => mkLocalTarget "") sample_missing Hn).
Defined.
